(** * A shallow embedding of libs/recipes/llamacpp_android/opencl_stub.c

    The C file defines 35 functions, each written [void name() {}]: a
    [void] return type, an unspecified parameter list (old-style [()],
    so a call may pass any arguments) and an empty compound statement as
    body.  Each function becomes a state-passing Rocq function over an
    arbitrary program state, in a small state/fault monad. *)

From Stdlib Require Import String List ZArith Bool.
Import ListNotations.
Open Scope string_scope.

(** ** C values and types *)

(** Values a caller may pass at a call site. *)
Inductive cval : Type :=
| CInt (z : Z)
| CPtr (addr : Z)
| CNull.

(** Return types of C declarations. *)
Inductive ctype : Type :=
| Tvoid
| Tint
| Tptr.

(** Ways in which a C call can fail instead of returning. *)
Inductive fault : Type :=
| UndefinedBehaviour
| Trap.

Inductive outcome (A : Type) : Type :=
| Ok (a : A)
| Fail (e : fault).
Arguments Ok {A} a.
Arguments Fail {A} e.

(** ** The state/fault monad *)

Module CMonad.
Section Monad.
Variable St : Type.

Definition M (A : Type) : Type := St -> outcome (A * St).

Definition ret {A} (a : A) : M A := fun s => Ok (a, s).

Definition bind {A B} (m : M A) (k : A -> M B) : M B :=
  fun s =>
    match m s with
    | Ok (a, s') => k a s'
    | Fail e => Fail e
    end.

(** Sequencing of two calls, as [f(); g();] in C. *)
Definition seq {A B} (m1 : M A) (m2 : M B) : M B := bind m1 (fun _ => m2).

End Monad.
End CMonad.

Arguments CMonad.ret {St A} a _.
Arguments CMonad.bind {St A B} m k _.
Arguments CMonad.seq {St A B} m1 m2 _.

Notation "m1 ;; m2" := (CMonad.seq m1 m2) (at level 61, right associativity).

(** ** The stub functions *)

Section Stubs.
Variable St : Type.

(** The body [{}]: an empty compound statement, after which control
    reaches the closing brace and a [void] function returns. *)
Definition empty_body : CMonad.M St unit := CMonad.ret tt.

(** [void clBuildProgram() {}] *)
Definition clBuildProgram (args : list cval) : CMonad.M St unit := empty_body.

(** [void clCreateBuffer() {}] *)
Definition clCreateBuffer (args : list cval) : CMonad.M St unit := empty_body.

(** [void clCreateCommandQueue() {}] *)
Definition clCreateCommandQueue (args : list cval) : CMonad.M St unit := empty_body.

(** [void clCreateContext() {}] *)
Definition clCreateContext (args : list cval) : CMonad.M St unit := empty_body.

(** [void clCreateImage() {}] *)
Definition clCreateImage (args : list cval) : CMonad.M St unit := empty_body.

(** [void clCreateKernel() {}] *)
Definition clCreateKernel (args : list cval) : CMonad.M St unit := empty_body.

(** [void clCreateProgramWithSource() {}] *)
Definition clCreateProgramWithSource (args : list cval) : CMonad.M St unit := empty_body.

(** [void clCreateSubBuffer() {}] *)
Definition clCreateSubBuffer (args : list cval) : CMonad.M St unit := empty_body.

(** [void clEnqueueBarrierWithWaitList() {}] *)
Definition clEnqueueBarrierWithWaitList (args : list cval) : CMonad.M St unit := empty_body.

(** [void clEnqueueCopyBuffer() {}] *)
Definition clEnqueueCopyBuffer (args : list cval) : CMonad.M St unit := empty_body.

(** [void clEnqueueFillBuffer() {}] *)
Definition clEnqueueFillBuffer (args : list cval) : CMonad.M St unit := empty_body.

(** [void clEnqueueMarkerWithWaitList() {}] *)
Definition clEnqueueMarkerWithWaitList (args : list cval) : CMonad.M St unit := empty_body.

(** [void clEnqueueNDRangeKernel() {}] *)
Definition clEnqueueNDRangeKernel (args : list cval) : CMonad.M St unit := empty_body.

(** [void clEnqueueReadBuffer() {}] *)
Definition clEnqueueReadBuffer (args : list cval) : CMonad.M St unit := empty_body.

(** [void clEnqueueWriteBuffer() {}] *)
Definition clEnqueueWriteBuffer (args : list cval) : CMonad.M St unit := empty_body.

(** [void clFinish() {}] *)
Definition clFinish (args : list cval) : CMonad.M St unit := empty_body.

(** [void clFlush() {}] *)
Definition clFlush (args : list cval) : CMonad.M St unit := empty_body.

(** [void clGetDeviceIDs() {}] *)
Definition clGetDeviceIDs (args : list cval) : CMonad.M St unit := empty_body.

(** [void clGetDeviceInfo() {}] *)
Definition clGetDeviceInfo (args : list cval) : CMonad.M St unit := empty_body.

(** [void clGetEventProfilingInfo() {}] *)
Definition clGetEventProfilingInfo (args : list cval) : CMonad.M St unit := empty_body.

(** [void clGetKernelInfo() {}] *)
Definition clGetKernelInfo (args : list cval) : CMonad.M St unit := empty_body.

(** [void clGetKernelSubGroupInfo() {}] *)
Definition clGetKernelSubGroupInfo (args : list cval) : CMonad.M St unit := empty_body.

(** [void clGetKernelWorkGroupInfo() {}] *)
Definition clGetKernelWorkGroupInfo (args : list cval) : CMonad.M St unit := empty_body.

(** [void clGetPlatformIDs() {}] *)
Definition clGetPlatformIDs (args : list cval) : CMonad.M St unit := empty_body.

(** [void clGetPlatformInfo() {}] *)
Definition clGetPlatformInfo (args : list cval) : CMonad.M St unit := empty_body.

(** [void clGetProgramBuildInfo() {}] *)
Definition clGetProgramBuildInfo (args : list cval) : CMonad.M St unit := empty_body.

(** [void clReleaseCommandQueue() {}] *)
Definition clReleaseCommandQueue (args : list cval) : CMonad.M St unit := empty_body.

(** [void clReleaseContext() {}] *)
Definition clReleaseContext (args : list cval) : CMonad.M St unit := empty_body.

(** [void clReleaseEvent() {}] *)
Definition clReleaseEvent (args : list cval) : CMonad.M St unit := empty_body.

(** [void clReleaseKernel() {}] *)
Definition clReleaseKernel (args : list cval) : CMonad.M St unit := empty_body.

(** [void clReleaseMemObject() {}] *)
Definition clReleaseMemObject (args : list cval) : CMonad.M St unit := empty_body.

(** [void clReleaseProgram() {}] *)
Definition clReleaseProgram (args : list cval) : CMonad.M St unit := empty_body.

(** [void clSetKernelArg() {}] *)
Definition clSetKernelArg (args : list cval) : CMonad.M St unit := empty_body.

(** [void clWaitForEvents() {}] *)
Definition clWaitForEvents (args : list cval) : CMonad.M St unit := empty_body.

(** [void clGetExtensionFunctionAddressForPlatform() {}] *)
Definition clGetExtensionFunctionAddressForPlatform (args : list cval) : CMonad.M St unit := empty_body.

End Stubs.

(** ** The symbols the file defines *)

Inductive symbol : Type :=
| S_clBuildProgram
| S_clCreateBuffer
| S_clCreateCommandQueue
| S_clCreateContext
| S_clCreateImage
| S_clCreateKernel
| S_clCreateProgramWithSource
| S_clCreateSubBuffer
| S_clEnqueueBarrierWithWaitList
| S_clEnqueueCopyBuffer
| S_clEnqueueFillBuffer
| S_clEnqueueMarkerWithWaitList
| S_clEnqueueNDRangeKernel
| S_clEnqueueReadBuffer
| S_clEnqueueWriteBuffer
| S_clFinish
| S_clFlush
| S_clGetDeviceIDs
| S_clGetDeviceInfo
| S_clGetEventProfilingInfo
| S_clGetKernelInfo
| S_clGetKernelSubGroupInfo
| S_clGetKernelWorkGroupInfo
| S_clGetPlatformIDs
| S_clGetPlatformInfo
| S_clGetProgramBuildInfo
| S_clReleaseCommandQueue
| S_clReleaseContext
| S_clReleaseEvent
| S_clReleaseKernel
| S_clReleaseMemObject
| S_clReleaseProgram
| S_clSetKernelArg
| S_clWaitForEvents
| S_clGetExtensionFunctionAddressForPlatform.

(** The name under which each symbol is defined (case-sensitive). *)
Definition symbol_name (f : symbol) : string :=
  match f with
  | S_clBuildProgram => "clBuildProgram"
  | S_clCreateBuffer => "clCreateBuffer"
  | S_clCreateCommandQueue => "clCreateCommandQueue"
  | S_clCreateContext => "clCreateContext"
  | S_clCreateImage => "clCreateImage"
  | S_clCreateKernel => "clCreateKernel"
  | S_clCreateProgramWithSource => "clCreateProgramWithSource"
  | S_clCreateSubBuffer => "clCreateSubBuffer"
  | S_clEnqueueBarrierWithWaitList => "clEnqueueBarrierWithWaitList"
  | S_clEnqueueCopyBuffer => "clEnqueueCopyBuffer"
  | S_clEnqueueFillBuffer => "clEnqueueFillBuffer"
  | S_clEnqueueMarkerWithWaitList => "clEnqueueMarkerWithWaitList"
  | S_clEnqueueNDRangeKernel => "clEnqueueNDRangeKernel"
  | S_clEnqueueReadBuffer => "clEnqueueReadBuffer"
  | S_clEnqueueWriteBuffer => "clEnqueueWriteBuffer"
  | S_clFinish => "clFinish"
  | S_clFlush => "clFlush"
  | S_clGetDeviceIDs => "clGetDeviceIDs"
  | S_clGetDeviceInfo => "clGetDeviceInfo"
  | S_clGetEventProfilingInfo => "clGetEventProfilingInfo"
  | S_clGetKernelInfo => "clGetKernelInfo"
  | S_clGetKernelSubGroupInfo => "clGetKernelSubGroupInfo"
  | S_clGetKernelWorkGroupInfo => "clGetKernelWorkGroupInfo"
  | S_clGetPlatformIDs => "clGetPlatformIDs"
  | S_clGetPlatformInfo => "clGetPlatformInfo"
  | S_clGetProgramBuildInfo => "clGetProgramBuildInfo"
  | S_clReleaseCommandQueue => "clReleaseCommandQueue"
  | S_clReleaseContext => "clReleaseContext"
  | S_clReleaseEvent => "clReleaseEvent"
  | S_clReleaseKernel => "clReleaseKernel"
  | S_clReleaseMemObject => "clReleaseMemObject"
  | S_clReleaseProgram => "clReleaseProgram"
  | S_clSetKernelArg => "clSetKernelArg"
  | S_clWaitForEvents => "clWaitForEvents"
  | S_clGetExtensionFunctionAddressForPlatform => "clGetExtensionFunctionAddressForPlatform"
  end.

(** The declared return type of each definition: every one is [void]. *)
Definition symbol_ret (f : symbol) : ctype :=
  match f with
  | S_clBuildProgram => Tvoid
  | S_clCreateBuffer => Tvoid
  | S_clCreateCommandQueue => Tvoid
  | S_clCreateContext => Tvoid
  | S_clCreateImage => Tvoid
  | S_clCreateKernel => Tvoid
  | S_clCreateProgramWithSource => Tvoid
  | S_clCreateSubBuffer => Tvoid
  | S_clEnqueueBarrierWithWaitList => Tvoid
  | S_clEnqueueCopyBuffer => Tvoid
  | S_clEnqueueFillBuffer => Tvoid
  | S_clEnqueueMarkerWithWaitList => Tvoid
  | S_clEnqueueNDRangeKernel => Tvoid
  | S_clEnqueueReadBuffer => Tvoid
  | S_clEnqueueWriteBuffer => Tvoid
  | S_clFinish => Tvoid
  | S_clFlush => Tvoid
  | S_clGetDeviceIDs => Tvoid
  | S_clGetDeviceInfo => Tvoid
  | S_clGetEventProfilingInfo => Tvoid
  | S_clGetKernelInfo => Tvoid
  | S_clGetKernelSubGroupInfo => Tvoid
  | S_clGetKernelWorkGroupInfo => Tvoid
  | S_clGetPlatformIDs => Tvoid
  | S_clGetPlatformInfo => Tvoid
  | S_clGetProgramBuildInfo => Tvoid
  | S_clReleaseCommandQueue => Tvoid
  | S_clReleaseContext => Tvoid
  | S_clReleaseEvent => Tvoid
  | S_clReleaseKernel => Tvoid
  | S_clReleaseMemObject => Tvoid
  | S_clReleaseProgram => Tvoid
  | S_clSetKernelArg => Tvoid
  | S_clWaitForEvents => Tvoid
  | S_clGetExtensionFunctionAddressForPlatform => Tvoid
  end.

(** A call of a symbol: dispatch to its definition. *)
Definition call {St : Type} (f : symbol) : list cval -> CMonad.M St unit :=
  match f with
  | S_clBuildProgram => clBuildProgram St
  | S_clCreateBuffer => clCreateBuffer St
  | S_clCreateCommandQueue => clCreateCommandQueue St
  | S_clCreateContext => clCreateContext St
  | S_clCreateImage => clCreateImage St
  | S_clCreateKernel => clCreateKernel St
  | S_clCreateProgramWithSource => clCreateProgramWithSource St
  | S_clCreateSubBuffer => clCreateSubBuffer St
  | S_clEnqueueBarrierWithWaitList => clEnqueueBarrierWithWaitList St
  | S_clEnqueueCopyBuffer => clEnqueueCopyBuffer St
  | S_clEnqueueFillBuffer => clEnqueueFillBuffer St
  | S_clEnqueueMarkerWithWaitList => clEnqueueMarkerWithWaitList St
  | S_clEnqueueNDRangeKernel => clEnqueueNDRangeKernel St
  | S_clEnqueueReadBuffer => clEnqueueReadBuffer St
  | S_clEnqueueWriteBuffer => clEnqueueWriteBuffer St
  | S_clFinish => clFinish St
  | S_clFlush => clFlush St
  | S_clGetDeviceIDs => clGetDeviceIDs St
  | S_clGetDeviceInfo => clGetDeviceInfo St
  | S_clGetEventProfilingInfo => clGetEventProfilingInfo St
  | S_clGetKernelInfo => clGetKernelInfo St
  | S_clGetKernelSubGroupInfo => clGetKernelSubGroupInfo St
  | S_clGetKernelWorkGroupInfo => clGetKernelWorkGroupInfo St
  | S_clGetPlatformIDs => clGetPlatformIDs St
  | S_clGetPlatformInfo => clGetPlatformInfo St
  | S_clGetProgramBuildInfo => clGetProgramBuildInfo St
  | S_clReleaseCommandQueue => clReleaseCommandQueue St
  | S_clReleaseContext => clReleaseContext St
  | S_clReleaseEvent => clReleaseEvent St
  | S_clReleaseKernel => clReleaseKernel St
  | S_clReleaseMemObject => clReleaseMemObject St
  | S_clReleaseProgram => clReleaseProgram St
  | S_clSetKernelArg => clSetKernelArg St
  | S_clWaitForEvents => clWaitForEvents St
  | S_clGetExtensionFunctionAddressForPlatform => clGetExtensionFunctionAddressForPlatform St
  end.

(** The symbols in the order the file defines them. *)
Definition all_symbols : list symbol :=
  [ S_clBuildProgram;
    S_clCreateBuffer;
    S_clCreateCommandQueue;
    S_clCreateContext;
    S_clCreateImage;
    S_clCreateKernel;
    S_clCreateProgramWithSource;
    S_clCreateSubBuffer;
    S_clEnqueueBarrierWithWaitList;
    S_clEnqueueCopyBuffer;
    S_clEnqueueFillBuffer;
    S_clEnqueueMarkerWithWaitList;
    S_clEnqueueNDRangeKernel;
    S_clEnqueueReadBuffer;
    S_clEnqueueWriteBuffer;
    S_clFinish;
    S_clFlush;
    S_clGetDeviceIDs;
    S_clGetDeviceInfo;
    S_clGetEventProfilingInfo;
    S_clGetKernelInfo;
    S_clGetKernelSubGroupInfo;
    S_clGetKernelWorkGroupInfo;
    S_clGetPlatformIDs;
    S_clGetPlatformInfo;
    S_clGetProgramBuildInfo;
    S_clReleaseCommandQueue;
    S_clReleaseContext;
    S_clReleaseEvent;
    S_clReleaseKernel;
    S_clReleaseMemObject;
    S_clReleaseProgram;
    S_clSetKernelArg;
    S_clWaitForEvents;
    S_clGetExtensionFunctionAddressForPlatform ].

(** The names the file exports. *)
Definition defined_names : list string := map symbol_name all_symbols.

(** Symbol resolution by exact (case-sensitive) name, as the linker does it. *)
Definition lookup (n : string) : option symbol :=
  find (fun f => String.eqb (symbol_name f) n) all_symbols.

(** The list of OpenCL API names the consuming code expects, as the
    specification enumerates them. *)
Definition spec_symbol_names : list string :=
  [ "clBuildProgram";
    "clCreateBuffer";
    "clCreateCommandQueue";
    "clCreateContext";
    "clCreateImage";
    "clCreateKernel";
    "clCreateProgramWithSource";
    "clCreateSubBuffer";
    "clEnqueueBarrierWithWaitList";
    "clEnqueueCopyBuffer";
    "clEnqueueFillBuffer";
    "clEnqueueMarkerWithWaitList";
    "clEnqueueNDRangeKernel";
    "clEnqueueReadBuffer";
    "clEnqueueWriteBuffer";
    "clFinish";
    "clFlush";
    "clGetDeviceIDs";
    "clGetDeviceInfo";
    "clGetEventProfilingInfo";
    "clGetKernelInfo";
    "clGetKernelSubGroupInfo";
    "clGetKernelWorkGroupInfo";
    "clGetPlatformIDs";
    "clGetPlatformInfo";
    "clGetProgramBuildInfo";
    "clReleaseCommandQueue";
    "clReleaseContext";
    "clReleaseEvent";
    "clReleaseKernel";
    "clReleaseMemObject";
    "clReleaseProgram";
    "clSetKernelArg";
    "clWaitForEvents";
    "clGetExtensionFunctionAddressForPlatform" ].

(** A caller's sequence of calls into the library, executed in order,
    as consecutive statements [f1(a1); f2(a2); ...] in the linking code. *)
Fixpoint run_calls {St : Type} (cs : list (symbol * list cval))
  : CMonad.M St unit :=
  match cs with
  | [] => CMonad.ret tt
  | (f, args) :: rest => call f args ;; run_calls rest
  end.

(** A concrete program state used to exercise the theorems: global
    variables, a heap, and a table of live OpenCL resource handles. *)
Record c_state : Type := mk_state {
  globals : list (string * Z);
  heap : list (Z * Z);
  live_handles : list Z
}.

Definition sample_state : c_state :=
  mk_state [("errno", 0%Z)] [(4096%Z, 7%Z); (4100%Z, 9%Z)] [1%Z].

(** ** Helper lemmas *)

Lemma empty_body_run (St : Type) (s : St) : empty_body St s = Ok (tt, s).
Proof. reflexivity. Qed.

Lemma call_run (St : Type) (f : symbol) (args : list cval) (s : St) :
  call f args s = Ok (tt, s).
Proof. destruct f; reflexivity. Qed.

Lemma seq_ok (St A B : Type) (m1 : CMonad.M St A) (m2 : CMonad.M St B)
  (a : A) (s s' : St) :
  m1 s = Ok (a, s') -> (m1 ;; m2) s = m2 s'.
Proof. intros H. unfold CMonad.seq, CMonad.bind. now rewrite H. Qed.

Lemma all_symbols_complete (f : symbol) : In f all_symbols.
Proof. destruct f; simpl; tauto. Qed.

(** ** Claims *)

(** C1: every stub function, called in any state with any arguments,
    returns and leaves the whole program state exactly as it was. *)
Theorem stub_frame (St : Type) (f : symbol) (args : list cval) (s : St) :
  exists r, call f args s = Ok (r, s).
Proof. exists tt. apply call_run. Qed.

(** C2: no call of a stub function fails: the outcome is always [Ok]. *)
Theorem stub_never_fails (St : Type) (f : symbol) (args : list cval) (s : St) :
  (forall e, call f args s <> Fail e) /\ exists r s', call f args s = Ok (r, s').
Proof.
  rewrite call_run. split.
  - intros e H; discriminate H.
  - eauto.
Qed.

(** C3: every call of a stub function returns (after the empty body). *)
Theorem stub_terminates (St : Type) (f : symbol) (args : list cval) (s : St) :
  exists s', call f args s = Ok (tt, s') /\ call f args s = empty_body St s.
Proof. exists s. now rewrite call_run. Qed.

(** C4: the file defines exactly the 35 OpenCL names of the specification,
    each once, and each of them resolves to a callable definition; the
    enumeration [all_symbols] lists every definition of the file. *)
Theorem defined_names_exact :
  defined_names = spec_symbol_names
  /\ NoDup defined_names
  /\ length defined_names = 35
  /\ (forall f, In f all_symbols)
  /\ (forall n, In n defined_names <-> In n spec_symbol_names)
  /\ (forall n, In n spec_symbol_names ->
        exists f, lookup n = Some f /\ symbol_name f = n).
Proof.
  assert (Heq : defined_names = spec_symbol_names) by reflexivity.
  split; [exact Heq|].
  split; [rewrite Heq; vm_compute; repeat constructor; simpl; intuition discriminate|].
  split; [reflexivity|].
  split; [exact all_symbols_complete|].
  split; [rewrite Heq; tauto|].
  intros n Hn. unfold spec_symbol_names in Hn.
  repeat (destruct Hn as [<- | Hn]; [eexists; split; reflexivity|]).
  destruct Hn.
Qed.

(** C5: every state predicate is preserved by every stub call. *)
Theorem stub_preserves_invariant (St : Type) (P : St -> Prop)
  (f : symbol) (args : list cval) (s : St) (HP : P s) :
  forall r s', call f args s = Ok (r, s') -> P s'.
Proof.
  intros r s' H. rewrite call_run in H. injection H as _ <-. exact HP.
Qed.

(** C6: calling a stub twice in a row is the same as calling it once. *)
Theorem stub_idempotent (St : Type) (f : symbol) (args : list cval) (s : St) :
  (call f args ;; call f args) s = call f args s.
Proof. apply (seq_ok _ _ _ _ _ tt s s); apply call_run. Qed.

(** C7: any two stub calls commute. *)
Theorem stub_commute (St : Type) (f g : symbol) (a b : list cval) (s : St) :
  (call f a ;; call g b) s = (call g b ;; call f a) s.
Proof.
  rewrite (seq_ok _ _ _ _ _ tt s s (call_run St f a s)).
  rewrite (seq_ok _ _ _ _ _ tt s s (call_run St g b s)).
  now rewrite !call_run.
Qed.

(** C8: a stub ignores its arguments: two calls of the same stub in equal
    states give equal results and states, whatever the arguments. *)
Theorem stub_args_ignored (St : Type) (f : symbol) (a1 a2 : list cval)
  (s1 s2 : St) (Hs : s1 = s2) :
  call f a1 s1 = call f a2 s2.
Proof. subst s2. now rewrite !call_run. Qed.

(** C9: every stub is declared [void] and its call yields only the unit
    value: no status code or handle is ever returned. *)
Theorem stub_returns_void (St : Type) (f : symbol) :
  symbol_ret f = Tvoid
  /\ forall (args : list cval) (s : St) r s',
       call f args s = Ok (r, s') -> r = tt.
Proof.
  split; [destruct f; reflexivity|].
  intros args s r s' _. destruct r. reflexivity.
Qed.

(** C10: each of the create and release calls, taken alone, returns and
    leaves the state unchanged (no resource is acquired or freed), and
    hence each create/release pair leaves the state unchanged. *)
Theorem create_release_identity (St : Type) (a b : list cval) (s : St) :
  (forall f, In f [S_clCreateBuffer; S_clCreateContext; S_clCreateKernel;
                   S_clCreateProgramWithSource; S_clCreateCommandQueue;
                   S_clReleaseMemObject; S_clReleaseContext; S_clReleaseKernel;
                   S_clReleaseProgram; S_clReleaseCommandQueue] ->
     forall args : list cval, call f args s = Ok (tt, s))
  /\ (call S_clCreateBuffer a ;; call S_clReleaseMemObject b) s = Ok (tt, s)
  /\ (call S_clCreateContext a ;; call S_clReleaseContext b) s = Ok (tt, s)
  /\ (call S_clCreateKernel a ;; call S_clReleaseKernel b) s = Ok (tt, s)
  /\ (call S_clCreateProgramWithSource a ;; call S_clReleaseProgram b) s = Ok (tt, s)
  /\ (call S_clCreateCommandQueue a ;; call S_clReleaseCommandQueue b) s = Ok (tt, s).
Proof.
  split; [intros f _ args; apply call_run|].
  repeat split.
Qed.

(** ** Witnesses *)

Lemma stub_preserves_invariant_witness :
  length (heap sample_state) = 2
  /\ length (heap (snd (tt, sample_state))) = 2.
Proof.
  split; [reflexivity|].
  apply (stub_preserves_invariant c_state (fun st => length (heap st) = 2)
           S_clCreateBuffer [CInt 0; CPtr 4096; CNull] sample_state
           eq_refl tt sample_state).
  vm_compute. reflexivity.
Defined.

Lemma stub_args_ignored_witness :
  call S_clGetPlatformIDs [CInt 1] sample_state
  = call S_clGetPlatformIDs [CPtr 4096; CNull; CInt 3] sample_state.
Proof.
  apply (stub_args_ignored c_state S_clGetPlatformIDs [CInt 1]
           [CPtr 4096; CNull; CInt 3] sample_state sample_state).
  reflexivity.
Defined.

(** ** Further properties *)

(** Any finite sequence of calls into the stub library, with any
    arguments, returns and leaves the program state exactly as it was. *)
Theorem run_calls_identity (St : Type) (cs : list (symbol * list cval)) (s : St) :
  run_calls cs s = Ok (tt, s).
Proof.
  induction cs as [| [f args] rest IH]; simpl.
  - reflexivity.
  - rewrite (seq_ok _ _ _ _ _ tt s s (call_run St f args s)). exact IH.
Qed.
